(** * The Playbook backstage view

    A shallow embedding of the [Playbook] React component of
    [webapp/src/components/backstage] (the second document of
    [styles.tsx]): its two pieces of local state, the asynchronous
    [fetchData] effect, and the element tree the component returns.

    JavaScript values that the component can hold at run time are kept
    apart ([null], [undefined], an object): the component compares with
    [===], which tells them apart. *)

From Stdlib Require Import String Ascii List ZArith Bool Lia.
From Stdlib Require Import DecimalString.
Import ListNotations.
Open Scope string_scope.

(** ** Data model *)

(** Modelled from the spec: the [PlaybookWithChecklist] type declaration of
    [src/types/playbook], which is imported but not part of the sources.
    The fields are the ones the component reads: identifier, title, owning
    team, member identifiers and deletion timestamp (zero means active). *)
Record PlaybookWithChecklist : Type := {
  id : string;
  title : string;
  team_id : string;
  member_ids : list string;
  delete_at : Z
}.

(** Modelled from the spec: the [Team] type of [mattermost-redux], a
    read-only projection with a name and a display name. *)
Record Team : Type := {
  name : string;
  display_name : string
}.

(** A value of static type [T | null] as it exists at run time: the
    non-null assertion [fetchedPlaybook!] is erased by the compiler, so
    [undefined] can be stored as well. *)
Inductive Nullable (T : Type) : Type :=
| null
| undefined
| object (v : T).
Arguments null {T}.
Arguments undefined {T}.
Arguments object {T} v.

(** [FetchingStateType]: an object of three string constants. *)
Inductive FetchingStateType : Type := loading | fetched | notFound.

Definition FetchingStateType_value (s : FetchingStateType) : string :=
  match s with
  | loading => "loading"
  | fetched => "fetched"
  | notFound => "notfound"
  end.

(** [a === b] on fetching states is [===] on their strings. *)
Definition fetchingState_eqb (a b : FetchingStateType) : bool :=
  FetchingStateType_value a =? FetchingStateType_value b.

(** [playbook === null]: strict equality, false on [undefined]. *)
Definition is_null {T} (v : Nullable T) : bool :=
  match v with
  | null => true
  | _ => false
  end.

(** Truthiness of a JavaScript string: every string but the empty one. *)
Definition truthy (s : string) : bool := negb (s =? "").

(** [`${n}`] for an array length: its decimal numeral. *)
Definition number_toString (n : nat) : string :=
  NilEmpty.string_of_uint (Nat.to_uint n).

(** The two [useState] cells of the component. *)
Record State : Type := {
  playbook : Nullable PlaybookWithChecklist;
  fetchingState : FetchingStateType
}.

(** [useState(null)] and [useState(FetchingStateType.loading)]. *)
Definition initialState : State :=
  {| playbook := null; fetchingState := loading |}.

(** ** The fetch effect

    [fetchData] is an [async] function with one [await].  It is split at
    the [await]: what runs before it, and the continuation that runs once
    the promise of [clientFetchPlaybook] settles. *)

(** How the promise of [clientFetchPlaybook(playbookId)] settles. *)
Inductive FetchResult : Type :=
| Resolved (fetchedPlaybook : Nullable PlaybookWithChecklist)
| Rejected (reason : string).

(** A call of one of the two state setters. *)
Inductive SetState : Type :=
| setPlaybook (v : Nullable PlaybookWithChecklist)
| setFetchingState (v : FetchingStateType).

Definition applySetState (s : State) (u : SetState) : State :=
  match u with
  | setPlaybook v => {| playbook := v; fetchingState := fetchingState s |}
  | setFetchingState v => {| playbook := playbook s; fetchingState := v |}
  end.

(** The state once the setter calls of a continuation are applied. *)
Definition commit (updates : list SetState) (s : State) : State :=
  fold_left applySetState updates s.

Inductive Async : Type :=
| Completed
| Await (playbookId : string) (resume : FetchResult -> list SetState).

(** Lines 98-104: the [try] block after the [await], and the [catch]
    clause, which binds nothing. *)
Definition fetchData_resume (r : FetchResult) : list SetState :=
  match r with
  | Resolved fetchedPlaybook =>
      [setPlaybook fetchedPlaybook; setFetchingState fetched]
  | Rejected _ => [setFetchingState notFound]
  end.

(** Lines 95-106, for the [match.params.playbookId] of the render that
    installed the effect. *)
Definition fetchData (playbookId : string) : Async :=
  if truthy playbookId then Await playbookId fetchData_resume
  else Completed.

(** ** The mounted component

    Its state, the dependency the effect was last run for, the
    identifiers [clientFetchPlaybook] was called with, and the
    continuations of the calls not settled yet. *)
Record Mounted : Type := {
  state : State;
  dep_playbookId : string;
  issued : list string;
  pending : list (FetchResult -> list SetState)
}.

(** [useEffect(() => { fetchData(); }, [match.params.playbookId])]. *)
Definition runEffect (playbookId : string) (m : Mounted) : Mounted :=
  match fetchData playbookId with
  | Completed =>
      {| state := state m; dep_playbookId := playbookId;
         issued := issued m; pending := pending m |}
  | Await i k =>
      {| state := state m; dep_playbookId := playbookId;
         issued := issued m ++ [i]; pending := pending m ++ [k] |}
  end.

Definition mount (playbookId : string) : Mounted :=
  runEffect playbookId
    {| state := initialState; dep_playbookId := playbookId;
       issued := []; pending := [] |}.

Fixpoint remove_nth {A} (n : nat) (l : list A) : list A :=
  match l, n with
  | [], _ => []
  | _ :: l', O => l'
  | x :: l', S n' => x :: remove_nth n' l'
  end.

(** What can happen to a mounted component: the route parameter takes a
    value, or the [n]-th call in flight settles. *)
Inductive Event : Type :=
| RouteParam (playbookId : string)
| Settle (n : nat) (r : FetchResult).

Definition handle (m : Mounted) (e : Event) : Mounted :=
  match e with
  | RouteParam p =>
      if p =? dep_playbookId m then m else runEffect p m
  | Settle n r =>
      match nth_error (pending m) n with
      | Some k =>
          {| state := commit (k r) (state m);
             dep_playbookId := dep_playbookId m;
             issued := issued m;
             pending := remove_nth n (pending m) |}
      | None => m
      end
  end.

Definition run (events : list Event) (m : Mounted) : Mounted :=
  fold_left handle events m.

(** ** What the host application provides

    The selectors, URL helpers and router of the host are imported by the
    component and are not part of it: they are an interface. *)
Class Host : Type := {
  GlobalState : Type;
  (** [getTeam(state, id)]: the team stored under [id], if any *)
  getTeam : GlobalState -> string -> option Team;
  (** [pluginErrorUrl(type)] of [src/browser_routing] *)
  pluginErrorUrl : string -> string;
  (** [ErrorPageTypes.PLAYBOOKS] of [src/constants] *)
  ErrorPageTypes_PLAYBOOKS : string;
  (** the router's [matchPath(pathname, {path, exact})]: does the
      location match the route *)
  matchPath : string -> string -> bool -> bool
}.

(** The values the hooks return in one render. *)
Record Hooks `{Host} : Type := {
  location_pathname : string;      (* useLocation().pathname *)
  match_params_playbookId : string; (* useRouteMatch().params.playbookId *)
  match_path : string;             (* useRouteMatch().path *)
  match_url : string;              (* useRouteMatch().url *)
  experimentalFeaturesEnabled : bool;
  store : GlobalState              (* the store the selector reads *)
}.

(** ** Element trees *)

Inductive Handler : Type := goToPlaybooks | goToEdit | runPlaybook.

Inductive Attr : Type :=
| AString (key value : string)
| ABool (key : string) (value : bool)
| AHandler (key : string) (value : Handler)
| APlaybook (key : string) (value : PlaybookWithChecklist)
| AOpaque (key : string).

#[local] Set Warnings "-register-all".

Inductive Node : Type :=
| Text (s : string)
| Elem (tag : string) (attrs : list Attr) (children : list Node).

(** What one call of the component function produces. *)
Inductive Rendered : Type :=
| RenderNull
| RenderThrow (error : string)
| RenderElem (n : Node).

Definition Fragment (children : list Node) : Node := Elem "" [] children.

Definition Redirect (target : string) : Node :=
  Elem "Redirect" [AString "to" target] [].

Definition PlaybookUsage (pb : PlaybookWithChecklist) : Node :=
  Elem "PlaybookUsage" [APlaybook "playbook" pb] [].

Definition NavItem (target label : string) : Node :=
  Elem "NavItem" [AOpaque "activeStyle"; AString "to" target] [Text label].

(** A [<Route>] with element children. *)
Record Route : Type := {
  route_exact : bool;
  route_path : string;
  route_children : list Node
}.

Section Component.
Context `{Host}.

(** [<Switch>]: the children of the first route the location matches,
    and nothing when none does. *)
Fixpoint Switch (pathname : string) (routes : list Route) : list Node :=
  match routes with
  | [] => []
  | r :: rest =>
      if matchPath pathname (route_path r) (route_exact r)
      then route_children r
      else Switch pathname rest
  end.

(** Lines 119-133: the sub-title and the icon class. *)
Definition permissionsDescription (pb : PlaybookWithChecklist)
    (team : option Team) : string * string :=
  let n := List.length (member_ids pb) in
  if Nat.eqb n 1 then
    ("Only you can access this playbook", "icon-lock-outline")
  else if Nat.ltb 1 n then
    (number_toString n ++ " people can access this playbook",
     "icon-lock-outline")
  else
    match team with
    | Some t =>
        ("Everyone in " ++ name t ++ " can access this playbook",
         "icon-globe")
    | None =>
        ("Everyone in this team can access this playbook", "icon-globe")
    end.

(** The argument of [useSelector]: [playbook?.team_id || ''] looked up. *)
Definition selectedTeam (h : Hooks) (s : State) : option Team :=
  getTeam (store h)
    match playbook s with
    | object pb => if truthy (team_id pb) then team_id pb else ""
    | _ => ""
    end.

(** The argument of [useForceDocumentTitle]. *)
Definition documentTitle (s : State) : string :=
  match playbook s with
  | object pb =>
      if truthy (title pb) then title pb ++ " - Playbooks" else "Playbooks"
  | _ => "Playbooks"
  end.

(** Lines 137-202: the tree returned once the guards are passed. *)
Definition content (h : Hooks) (pb : PlaybookWithChecklist)
    (team : option Team) : Node :=
  let subTitle := fst (permissionsDescription pb team) in
  let accessIconClass := snd (permissionsDescription pb team) in
  let enableRunPlaybook := (delete_at pb =? 0)%Z in
  Fragment [
    Elem "TopContainer" [] [
      Elem "TitleRow" [] [
        Elem "LeftArrow"
          [AString "className" "icon-arrow-left";
           AHandler "onClick" goToPlaybooks] [];
        Elem "VerticalBlock" [] [
          Elem "Title" [] [Text (title pb)];
          Elem "HorizontalBlock"
            [AString "data-testid" "playbookPermissionsDescription"] [
            Elem "i" [AString "className" ("icon " ++ accessIconClass)] [];
            Elem "SubTitle" [] [Text subTitle]
          ]
        ];
        Elem "SecondaryButtonLargerRight" [AHandler "onClick" goToEdit] [
          Elem "i" [AString "className" "icon icon-pencil-outline"] [];
          Text "Edit"
        ];
        Elem "PrimaryButtonLarger"
          [AHandler "onClick" runPlaybook;
           ABool "disabled" (negb enableRunPlaybook);
           AString "data-testid" "run-playbook"] [
          Elem "RightMarginedIcon" [AOpaque "path"; AOpaque "size"] [];
          Text "Run"
        ]
      ]
    ];
    if negb (experimentalFeaturesEnabled h) then PlaybookUsage pb
    else
      Fragment [
        Elem "Navbar" [] [
          NavItem (match_url h ++ "/preview") "Preview";
          NavItem (match_url h ++ "/usage") "Usage"
        ];
        Elem "Switch" []
          (Switch (location_pathname h) [
             {| route_exact := true;
                route_path := match_path h;
                route_children := [Redirect (match_url h ++ "/usage")] |};
             {| route_exact := false;
                route_path := match_path h ++ "/preview";
                route_children :=
                  [Elem "h4" [] [Text "Site under construction"]] |};
             {| route_exact := false;
                route_path := match_path h ++ "/usage";
                route_children := [PlaybookUsage pb] |}
           ])
      ]
  ].

(** The component function, lines 111-202: two guards, then the tree.
    Reading [member_ids] of [null] or [undefined] throws a [TypeError]. *)
Definition Playbook (h : Hooks) (s : State) : Rendered :=
  let team := selectedTeam h s in
  if fetchingState_eqb (fetchingState s) loading then RenderNull
  else if fetchingState_eqb (fetchingState s) notFound
          || is_null (playbook s)
  then RenderElem (Redirect (pluginErrorUrl ErrorPageTypes_PLAYBOOKS))
  else
    match playbook s with
    | object pb => RenderElem (content h pb team)
    | _ => RenderThrow "TypeError"
    end.

End Component.

(** ** Queries on what was rendered *)

Fixpoint attr_string (key : string) (attrs : list Attr) : option string :=
  match attrs with
  | [] => None
  | AString k v :: rest => if k =? key then Some v else attr_string key rest
  | _ :: rest => attr_string key rest
  end.

Fixpoint attr_bool (key : string) (attrs : list Attr) : option bool :=
  match attrs with
  | [] => None
  | ABool k v :: rest => if k =? key then Some v else attr_bool key rest
  | _ :: rest => attr_bool key rest
  end.

(** The [data-testid] attributes of a tree, in document order.  A child
    component such as [PlaybookUsage] is a leaf: what it renders itself is
    not part of this component. *)
Fixpoint testIds (n : Node) : list string :=
  match n with
  | Text _ => []
  | Elem _ attrs children =>
      match attr_string "data-testid" attrs with
      | Some t => [t]
      | None => []
      end ++ flat_map testIds children
  end.

(** The first element carrying the test identifier [t]. *)
Fixpoint findByTestId (t : string) (n : Node) : option Node :=
  match n with
  | Text _ => None
  | Elem _ attrs children =>
      match attr_string "data-testid" attrs with
      | Some t' =>
          if t' =? t then Some n
          else
            (fix first (l : list Node) : option Node :=
               match l with
               | [] => None
               | c :: l' =>
                   match findByTestId t c with
                   | Some r => Some r
                   | None => first l'
                   end
               end) children
      | None =>
          (fix first (l : list Node) : option Node :=
             match l with
             | [] => None
             | c :: l' =>
                 match findByTestId t c with
                 | Some r => Some r
                 | None => first l'
                 end
             end) children
      end
  end.

(** The targets of the [<Redirect>] elements of a tree. *)
Fixpoint redirects (n : Node) : list string :=
  match n with
  | Text _ => []
  | Elem tag attrs children =>
      (if tag =? "Redirect" then
         match attr_string "to" attrs with
         | Some target => [target]
         | None => []
         end
       else []) ++ flat_map redirects children
  end.

Definition isDisabled (n : Node) : bool :=
  match n with
  | Elem _ attrs _ =>
      match attr_bool "disabled" attrs with
      | Some b => b
      | None => false
      end
  | Text _ => false
  end.

Definition queryByTestId (t : string) (r : Rendered) : option Node :=
  match r with
  | RenderElem n => findByTestId t n
  | _ => None
  end.

Definition renderedTestIds (r : Rendered) : list string :=
  match r with
  | RenderElem n => testIds n
  | _ => []
  end.

Definition renderedRedirects (r : Rendered) : list string :=
  match r with
  | RenderElem n => redirects n
  | _ => []
  end.

(** The permissions line as the component builds it. *)
Definition permissionsLine (iconClass text : string) : Node :=
  Elem "HorizontalBlock"
    [AString "data-testid" "playbookPermissionsDescription"] [
    Elem "i" [AString "className" ("icon " ++ iconClass)] [];
    Elem "SubTitle" [] [Text text]
  ].

(** The state after a fetch that stored [pb]. *)
Definition fetchedState (pb : PlaybookWithChecklist) : State :=
  {| playbook := object pb; fetchingState := fetched |}.

(** ** A concrete host, for worked examples

    Locations are matched segment by segment; a pattern segment that
    starts with a colon matches any segment; an exact match uses up the
    whole location. *)

Fixpoint segments_from (s cur : string) : list string :=
  match s with
  | EmptyString => [cur]
  | String c s' =>
      if Ascii.eqb c "/" then cur :: segments_from s' ""
      else segments_from s' (cur ++ String c "")
  end.

Definition segments (s : string) : list string :=
  filter (fun x => negb (x =? "")) (segments_from s "").

Definition segment_matches (pattern segment : string) : bool :=
  match pattern with
  | String c _ => if Ascii.eqb c ":" then true else pattern =? segment
  | EmptyString => pattern =? segment
  end.

Fixpoint segments_match (exact : bool) (pattern location : list string)
    : bool :=
  match pattern, location with
  | [], [] => true
  | [], _ :: _ => negb exact
  | _ :: _, [] => false
  | p :: ps, x :: xs => segment_matches p x && segments_match exact ps xs
  end.

Definition exampleMatchPath (pathname path : string) (exact : bool) : bool :=
  segments_match exact (segments path) (segments pathname).

Definition exampleGetTeam (teams : list (string * Team)) (i : string)
    : option Team :=
  option_map snd (find (fun kv => fst kv =? i) teams).

Definition exampleHost : Host :=
  {| GlobalState := list (string * Team);
     getTeam := exampleGetTeam;
     pluginErrorUrl := fun t => "/playbooks/error?type=" ++ t;
     ErrorPageTypes_PLAYBOOKS := "playbooks";
     matchPath := exampleMatchPath |}.

Definition exampleTeams : list (string * Team) :=
  [("team1", {| name := "Foo"; display_name := "Foo Team" |})].

(** A visit of the playbook [pb1] at [pathname]. *)
Definition exampleHooks (pathname : string) (experimental : bool)
    (teams : list (string * Team)) : @Hooks exampleHost :=
  @Build_Hooks exampleHost
    pathname                            (* location_pathname *)
    "pb1"                               (* match_params_playbookId *)
    "/playbooks/playbooks/:playbookId"  (* match_path *)
    "/playbooks/playbooks/pb1"          (* match_url *)
    experimental                        (* experimentalFeaturesEnabled *)
    teams.                              (* store *)

Definition examplePlaybook (members : list string) (deleted : Z)
    : PlaybookWithChecklist :=
  {| id := "pb1"; title := "Playbook"; team_id := "team1";
     member_ids := members; delete_at := deleted |}.

(** Every continuation in flight is the one of [fetchData]. *)
Definition pendingFromFetchData (m : Mounted) : Prop :=
  Forall (fun k => k = fetchData_resume) (pending m).

(** The location is the root path of the resource: the route with
    [exact] and [match.path] matches it. *)
Definition atRoot `{Host} (h : Hooks) : bool :=
  matchPath (location_pathname h) (match_path h) true.

(** No navigation: the route parameter keeps the value [p]. *)
Definition keepsParam (p : string) (e : Event) : Prop :=
  match e with
  | RouteParam q => q = p
  | Settle _ _ => True
  end.


(** ** The click handlers

    Lines 79-92.  A handler is a closure over the values of the render
    that created it; running it makes calls to the host, in order, and may
    throw. *)

Inductive HostCall : Type :=
| navigateToPluginUrl (url : string)
| navigateToUrl (url : string)
| telemetryEventForPlaybook (playbookId event : string).

Record Outcome : Type := {
  calls : list HostCall;
  thrown : option string
}.

Section Handlers.
Context `{Host}.

(** Lines 79-81. *)
Definition goToPlaybooks_body : Outcome :=
  {| calls := [navigateToPluginUrl "/playbooks"]; thrown := None |}.

(** Lines 83-85. *)
Definition goToEdit_body (h : Hooks) : Outcome :=
  {| calls := [navigateToUrl (location_pathname h ++ "/edit")];
     thrown := None |}.

(** Lines 87-92.  The telemetry call comes first; building the URL reads
    [team.name], which throws a [TypeError] when the selector found no
    team, before [navigateToUrl] is called. *)
Definition runPlaybook_body (s : State) (team : option Team) : Outcome :=
  match playbook s with
  | object pb =>
      if truthy (id pb) then
        match team with
        | Some t =>
            {| calls :=
                 [telemetryEventForPlaybook (id pb)
                    "playbook_dashboard_run_clicked";
                  navigateToUrl
                    ("/" ++ (if truthy (name t) then name t else "")
                       ++ "/_playbooks/"
                       ++ (if truthy (id pb) then id pb else "")
                       ++ "/run")];
               thrown := None |}
        | None =>
            {| calls :=
                 [telemetryEventForPlaybook (id pb)
                    "playbook_dashboard_run_clicked"];
               thrown := Some "TypeError" |}
        end
      else {| calls := []; thrown := None |}
  | _ => {| calls := []; thrown := None |}
  end.

(** Running the handler an element of the render of [s] under [h] holds. *)
Definition invoke (hd : Handler) (h : Hooks) (s : State) : Outcome :=
  match hd with
  | goToPlaybooks => goToPlaybooks_body
  | goToEdit => goToEdit_body h
  | runPlaybook => runPlaybook_body s (selectedTeam h s)
  end.

End Handlers.

(** ** The states that get rendered

    Each setter call schedules a render.  Without batching the state after
    every single call is rendered, with batching only the last one; the
    list below has them all. *)

Fixpoint scan (updates : list SetState) (s : State) : list State :=
  match updates with
  | [] => []
  | u :: rest => applySetState s u :: scan rest (applySetState s u)
  end.

Definition statesOf (m : Mounted) (e : Event) : list State :=
  match e with
  | RouteParam _ => [state m]
  | Settle n r =>
      match nth_error (pending m) n with
      | Some k => scan (k r) (state m)
      | None => []
      end
  end.

Fixpoint renderedStates (events : list Event) (m : Mounted) : list State :=
  match events with
  | [] => []
  | e :: rest => statesOf m e ++ renderedStates rest (handle m e)
  end.

(** The event is not a fetch that resolves with [undefined]. *)
Definition resolvesDefined (e : Event) : Prop :=
  match e with
  | Settle _ (Resolved undefined) => False
  | _ => True
  end.

(** The event is a value of the route parameter. *)
Definition isRouteParam (e : Event) : bool :=
  match e with
  | RouteParam _ => true
  | Settle _ _ => false
  end.

(** How many elements of a tree have the tag [tag]. *)
Fixpoint countTag (tag : string) (n : Node) : nat :=
  match n with
  | Text _ => 0
  | Elem tag' _ children =>
      (if tag' =? tag then 1 else 0)
      + list_sum (map (countTag tag) children)
  end.

Definition renderedCount (tag : string) (r : Rendered) : nat :=
  match r with
  | RenderElem n => countTag tag n
  | _ => 0
  end.

(** The three routes of the [<Switch>], as the location matches them. *)
Definition atPreview `{Host} (h : Hooks) : bool :=
  matchPath (location_pathname h) (match_path h ++ "/preview") false.

Definition atUsage `{Host} (h : Hooks) : bool :=
  matchPath (location_pathname h) (match_path h ++ "/usage") false.

(** * Properties *)

(** ** The status enumeration and the guards *)

Lemma fetchingState_eqb_eq (a b : FetchingStateType) :
  fetchingState_eqb a b = true <-> a = b.
Proof.
  destruct a, b; vm_compute; split; intro E;
    first [reflexivity | discriminate E].
Qed.

Lemma fetchingState_eqb_refl (a : FetchingStateType) :
  fetchingState_eqb a a = true.
Proof. now apply fetchingState_eqb_eq. Qed.

Lemma fetchingState_eqb_neq (a b : FetchingStateType) :
  a <> b -> fetchingState_eqb a b = false.
Proof.
  intro N. destruct (fetchingState_eqb a b) eqn:E; [|reflexivity].
  apply fetchingState_eqb_eq in E. contradiction.
Qed.

Section Guards.
Context `{Host}.
Implicit Types (h : Hooks) (s : State) (pb : PlaybookWithChecklist).

Lemma Playbook_loading h s :
  fetchingState s = loading -> Playbook h s = RenderNull.
Proof.
  intro L. unfold Playbook. rewrite L.
  now rewrite fetchingState_eqb_refl.
Qed.

Lemma Playbook_notFound h s :
  fetchingState s = notFound ->
  Playbook h s = RenderElem (Redirect (pluginErrorUrl ErrorPageTypes_PLAYBOOKS)).
Proof.
  intro L. unfold Playbook. rewrite L.
  rewrite fetchingState_eqb_neq by discriminate.
  now rewrite fetchingState_eqb_refl.
Qed.

Lemma Playbook_null h s :
  fetchingState s <> loading -> playbook s = null ->
  Playbook h s = RenderElem (Redirect (pluginErrorUrl ErrorPageTypes_PLAYBOOKS)).
Proof.
  intros L N. unfold Playbook.
  rewrite (fetchingState_eqb_neq _ _ L), N. simpl.
  now rewrite orb_true_r.
Qed.

Lemma Playbook_undefined h s :
  fetchingState s = fetched -> playbook s = undefined ->
  Playbook h s = RenderThrow "TypeError".
Proof.
  intros L U. unfold Playbook. rewrite L, U. reflexivity.
Qed.

Lemma Playbook_fetched h pb :
  Playbook h (fetchedState pb)
  = RenderElem (content h pb (selectedTeam h (fetchedState pb))).
Proof. reflexivity. Qed.

Lemma selectedTeam_fetched h pb :
  selectedTeam h (fetchedState pb) = getTeam (store h) (team_id pb).
Proof.
  unfold selectedTeam, truthy. simpl.
  destruct (team_id pb =? "") eqn:E; simpl; [|reflexivity].
  apply String.eqb_eq in E. now rewrite E.
Qed.

End Guards.

(** ** The life of a mounted component *)

Lemma commit_resolved (v : Nullable PlaybookWithChecklist) (s : State) :
  commit (fetchData_resume (Resolved v)) s
  = {| playbook := v; fetchingState := fetched |}.
Proof. reflexivity. Qed.

Lemma commit_rejected (e : string) (s : State) :
  commit (fetchData_resume (Rejected e)) s
  = {| playbook := playbook s; fetchingState := notFound |}.
Proof. reflexivity. Qed.

Lemma remove_nth_Forall {A} (P : A -> Prop) (n : nat) (l : list A) :
  Forall P l -> Forall P (remove_nth n l).
Proof.
  intro F. revert n.
  induction F as [|x l Px F IH]; intros [|n]; simpl; auto.
Qed.

Lemma runEffect_pending (p : string) (m : Mounted) :
  pendingFromFetchData m -> pendingFromFetchData (runEffect p m).
Proof.
  unfold pendingFromFetchData, runEffect, fetchData. intro F.
  destruct (truthy p); simpl; [|exact F].
  apply Forall_app. split; [exact F|]. now constructor.
Qed.

Lemma handle_pending (m : Mounted) (e : Event) :
  pendingFromFetchData m -> pendingFromFetchData (handle m e).
Proof.
  intro F. destruct e as [p|n r]; simpl.
  - destruct (p =? dep_playbookId m); [exact F|].
    now apply runEffect_pending.
  - destruct (nth_error (pending m) n); [|exact F].
    now apply remove_nth_Forall.
Qed.

Lemma run_pending (events : list Event) (m : Mounted) :
  pendingFromFetchData m -> pendingFromFetchData (run events m).
Proof.
  revert m. induction events as [|e events IH]; intros m F; simpl.
  - exact F.
  - apply IH. now apply handle_pending.
Qed.

Lemma mount_pending (p : string) : pendingFromFetchData (mount p).
Proof. apply runEffect_pending. constructor. Qed.

Lemma reachable_pending (p : string) (events : list Event) (n : nat)
    (k : FetchResult -> list SetState) :
  nth_error (pending (run events (mount p))) n = Some k ->
  k = fetchData_resume.
Proof.
  intro E. apply nth_error_In in E.
  pose proof (run_pending events _ (mount_pending p)) as F.
  unfold pendingFromFetchData in F. rewrite Forall_forall in F.
  now apply F.
Qed.

Lemma handle_settle (m : Mounted) (n : nat) (r : FetchResult) :
  nth_error (pending m) n = Some fetchData_resume ->
  state (handle m (Settle n r)) = commit (fetchData_resume r) (state m).
Proof. intro E. simpl. now rewrite E. Qed.

(** With nothing in flight and no navigation, nothing changes. *)
Lemma run_quiescent (events : list Event) (m : Mounted) :
  pending m = [] ->
  Forall (keepsParam (dep_playbookId m)) events ->
  run events m = m.
Proof.
  intros P F. induction F as [|e events K F IH]; simpl; [reflexivity|].
  assert (E : handle m e = m).
  { destruct e as [q|n r]; simpl in *.
    - rewrite K. now rewrite String.eqb_refl.
    - rewrite P. now destruct n. }
  rewrite E. exact IH.
Qed.

Lemma mount_empty :
  mount "" = {| state := initialState; dep_playbookId := "";
                issued := []; pending := [] |}.
Proof. reflexivity. Qed.

Lemma mount_truthy (p : string) :
  truthy p = true ->
  mount p = {| state := initialState; dep_playbookId := p;
               issued := [p]; pending := [fetchData_resume] |}.
Proof. intro T. unfold mount, runEffect, fetchData. now rewrite T. Qed.

(** ** Claims on the guards and on the fetch *)

(** C1, as stated, fails on the first render: the stored playbook is
    [null], yet the view returns [null] and not the redirect, because the
    loading guard comes first. *)
Lemma initial_render_is_not_redirect :
  playbook initialState = null /\
  @Playbook exampleHost
    (exampleHooks "/playbooks/playbooks/pb1" false exampleTeams) initialState
  <> RenderElem (Redirect "/playbooks/error?type=playbooks").
Proof. split; [reflexivity | vm_compute; discriminate]. Qed.

(** C1, amended: in every render, the view returns [null] (so nothing
    derived from the playbook) while the status is loading; once the
    status is not loading, it returns the redirect to the error page
    whenever the status is not-found or the stored playbook is [null]. *)
Theorem Playbook_render_guards `{Host} (h : Hooks) (s : State) :
  (fetchingState s = loading -> Playbook h s = RenderNull) /\
  (fetchingState s <> loading ->
   fetchingState s = notFound \/ playbook s = null ->
   Playbook h s
   = RenderElem (Redirect (pluginErrorUrl ErrorPageTypes_PLAYBOOKS))).
Proof.
  split.
  - apply Playbook_loading.
  - intros L [N|N].
    + now apply Playbook_notFound.
    + now apply Playbook_null.
Qed.

Lemma Playbook_render_guards_witness :
  @Playbook exampleHost
    (exampleHooks "/playbooks/playbooks/pb1" false exampleTeams) initialState
  = RenderNull /\
  @Playbook exampleHost
    (exampleHooks "/playbooks/playbooks/pb1" false exampleTeams)
    {| playbook := null; fetchingState := fetched |}
  = RenderElem (Redirect "/playbooks/error?type=playbooks").
Proof.
  split.
  - apply (proj1 (@Playbook_render_guards exampleHost
                    (exampleHooks "/playbooks/playbooks/pb1" false exampleTeams)
                    initialState)).
    reflexivity.
  - apply (proj2 (@Playbook_render_guards exampleHost
                    (exampleHooks "/playbooks/playbooks/pb1" false exampleTeams)
                    {| playbook := null; fetchingState := fetched |})).
    + discriminate.
    + right. reflexivity.
Defined.

(** C2: the status starts as loading; when a fetch in flight resolves,
    the status becomes fetched and the resolved value is the stored
    playbook; when it is rejected, the status becomes not-found, the
    stored playbook is the one from before, and the reason of the
    rejection has no influence on the state. *)
Theorem fetch_settlement (p : string) (events : list Event) (n : nat)
    (k : FetchResult -> list SetState)
    (Hk : nth_error (pending (run events (mount p))) n = Some k) :
  let m := run events (mount p) in
  fetchingState initialState = loading /\
  state (mount p) = initialState /\
  (forall v, state (handle m (Settle n (Resolved v)))
             = {| playbook := v; fetchingState := fetched |}) /\
  (forall e, state (handle m (Settle n (Rejected e)))
             = {| playbook := playbook (state m);
                  fetchingState := notFound |}) /\
  (forall e e', handle m (Settle n (Rejected e))
                = handle m (Settle n (Rejected e'))).
Proof.
  intro m. pose proof (reachable_pending _ _ _ _ Hk) as ->.
  repeat split.
  - unfold mount, runEffect. now destruct (fetchData p).
  - intro v. unfold m. rewrite (handle_settle _ _ _ Hk).
    apply commit_resolved.
  - intro e. unfold m. rewrite (handle_settle _ _ _ Hk).
    apply commit_rejected.
  - intros e e'. unfold m. simpl. now rewrite Hk.
Qed.

Lemma fetch_settlement_witness :
  (forall v, state (handle (mount "pb1") (Settle 0 (Resolved v)))
             = {| playbook := v; fetchingState := fetched |}) /\
  (forall e, state (handle (mount "pb1") (Settle 0 (Rejected e)))
             = {| playbook := null; fetchingState := notFound |}).
Proof.
  pose proof (fetch_settlement "pb1" [] 0 fetchData_resume eq_refl) as W.
  split; apply W.
Defined.

(** C3: whatever the reason of a rejected fetch, the status becomes
    not-found and the view returns the redirect to the error page of
    type [ErrorPageTypes.PLAYBOOKS]; with nothing else in flight and no
    navigation, every later render returns that redirect too. *)
Theorem fetch_failure_redirects `{Host} (h : Hooks) (p : string)
    (events later : list Event) (n : nat)
    (k : FetchResult -> list SetState) (e : string)
    (Hk : nth_error (pending (run events (mount p))) n = Some k) :
  let m := handle (run events (mount p)) (Settle n (Rejected e)) in
  fetchingState (state m) = notFound /\
  Playbook h (state m)
  = RenderElem (Redirect (pluginErrorUrl ErrorPageTypes_PLAYBOOKS)) /\
  (pending m = [] -> Forall (keepsParam (dep_playbookId m)) later ->
   Playbook h (state (run later m))
   = RenderElem (Redirect (pluginErrorUrl ErrorPageTypes_PLAYBOOKS))).
Proof.
  intro m.
  assert (N : fetchingState (state m) = notFound).
  { unfold m. pose proof (reachable_pending _ _ _ _ Hk) as ->.
    now rewrite (handle_settle _ _ _ Hk). }
  split; [exact N|]. split.
  - now apply Playbook_notFound.
  - intros P F. rewrite (run_quiescent _ _ P F). now apply Playbook_notFound.
Qed.

Lemma fetch_failure_redirects_witness :
  @Playbook exampleHost
    (exampleHooks "/playbooks/playbooks/an_unknown_id" false exampleTeams)
    (state (run [RouteParam "an_unknown_id"; Settle 3 (Rejected "late")]
              (handle (mount "an_unknown_id")
                 (Settle 0 (Rejected "404 Not Found")))))
  = RenderElem (Redirect "/playbooks/error?type=playbooks").
Proof.
  apply (@fetch_failure_redirects exampleHost
           (exampleHooks "/playbooks/playbooks/an_unknown_id" false
              exampleTeams)
           "an_unknown_id" []
           [RouteParam "an_unknown_id"; Settle 3 (Rejected "late")]
           0 fetchData_resume "404 Not Found" eq_refl).
  - reflexivity.
  - repeat constructor.
Defined.

(** C9: when the component is mounted with the empty identifier and the
    identifier stays empty, [clientFetchPlaybook] is never called, no call
    is in flight, the status is loading, and every render returns [null]. *)
Theorem empty_playbookId_stays_loading `{Host} (h : Hooks)
    (events : list Event) (Hev : Forall (keepsParam "") events) :
  let m := run events (mount "") in
  issued m = [] /\ pending m = [] /\
  fetchingState (state m) = loading /\
  Playbook h (state m) = RenderNull.
Proof.
  intro m. unfold m. rewrite run_quiescent.
  - repeat split.
  - reflexivity.
  - exact Hev.
Qed.

Lemma empty_playbookId_stays_loading_witness :
  @Playbook exampleHost (exampleHooks "/playbooks/playbooks/" true exampleTeams)
    (state (run [RouteParam ""; Settle 0 (Resolved undefined); RouteParam ""]
              (mount "")))
  = RenderNull.
Proof.
  apply (@empty_playbookId_stays_loading exampleHost
           (exampleHooks "/playbooks/playbooks/" true exampleTeams)
           [RouteParam ""; Settle 0 (Resolved undefined); RouteParam ""]).
  repeat constructor.
Defined.

(** The part of C10 on [null]: a fetch that resolves with [null] sets the
    status to fetched and stores [null], and the view returns the redirect. *)
Lemma resolved_null_redirects `{Host} (h : Hooks) (p : string) :
  truthy p = true ->
  let m := run [Settle 0 (Resolved null)] (mount p) in
  state m = {| playbook := null; fetchingState := fetched |} /\
  Playbook h (state m)
  = RenderElem (Redirect (pluginErrorUrl ErrorPageTypes_PLAYBOOKS)).
Proof.
  intro T. rewrite (mount_truthy _ T). simpl. split; reflexivity.
Qed.

(** The part of C10 on reachability: with [null] stored, no render reads
    a field of the playbook. *)
Lemma null_never_dereferenced `{Host} (h : Hooks) (s : State) :
  playbook s = null ->
  Playbook h s = RenderNull \/
  Playbook h s
  = RenderElem (Redirect (pluginErrorUrl ErrorPageTypes_PLAYBOOKS)).
Proof.
  intro N. destruct (fetchingState s) eqn:L.
  - left. now apply Playbook_loading.
  - right. apply Playbook_null; [rewrite L; discriminate | exact N].
  - right. now apply Playbook_notFound.
Qed.

(** C10, at the input where the code departs from it: a fetch that
    resolves with [undefined] sets the status to fetched and stores
    [undefined]; the guard [playbook === null] does not fire, and the
    render throws on [playbook.member_ids] instead of returning the
    redirect. *)
Theorem resolved_undefined_throws `{Host} (h : Hooks) :
  let m := run [Settle 0 (Resolved undefined)] (mount "pb1") in
  state m = {| playbook := undefined; fetchingState := fetched |} /\
  is_null (playbook (state m)) = false /\
  Playbook h (state m) = RenderThrow "TypeError" /\
  Playbook h (state m)
  <> RenderElem (Redirect (pluginErrorUrl ErrorPageTypes_PLAYBOOKS)).
Proof.
  simpl. repeat split. discriminate.
Qed.

(** ** Claims on the rendered tree *)

(** Induction on trees, with the hypothesis on every child. *)
Lemma Node_nested_ind (P : Node -> Prop) :
  (forall s, P (Text s)) ->
  (forall tag attrs children,
     Forall P children -> P (Elem tag attrs children)) ->
  forall n, P n.
Proof.
  intros HT HE. fix IH 1. intros [s|tag attrs children].
  - apply HT.
  - apply HE. induction children as [|c cs IHcs]; constructor.
    + apply IH.
    + exact IHcs.
Qed.

(** A test identifier that no element carries is not found. *)
Lemma findByTestId_absent (t : string) (n : Node) :
  ~ In t (testIds n) -> findByTestId t n = None.
Proof.
  induction n as [s|tag attrs children IH] using Node_nested_ind;
    [reflexivity|].
  simpl. intro NI.
  assert (C : (fix first (l : list Node) : option Node :=
                 match l with
                 | [] => None
                 | c :: l' =>
                     match findByTestId t c with
                     | Some r => Some r
                     | None => first l'
                     end
                 end) children = None).
  { assert (NC : ~ In t (flat_map testIds children)).
    { intro I. apply NI. apply in_or_app. now right. }
    clear NI. induction IH as [|c cs Hc _ IHcs]; [reflexivity|].
    simpl in NC. rewrite Hc.
    - apply IHcs. intro I. apply NC. apply in_or_app. now right.
    - intro I. apply NC. apply in_or_app. now left. }
  destruct (attr_string "data-testid" attrs) as [t'|]; [|exact C].
  destruct (t' =? t) eqn:E; [|exact C].
  apply String.eqb_eq in E. subst t'. exfalso. apply NI. now left.
Qed.

Lemma queryByTestId_absent (t : string) (r : Rendered) :
  ~ In t (renderedTestIds r) -> queryByTestId t r = None.
Proof.
  destruct r as [| |n]; try reflexivity. apply findByTestId_absent.
Qed.

Lemma number_toString_examples :
  number_toString 2 = "2" /\ number_toString 12 = "12" /\
  number_toString 100 = "100".
Proof. repeat split. Qed.

Section Tree.
Context `{Host}.
Implicit Types (h : Hooks) (pb : PlaybookWithChecklist) (team : option Team).

Lemma permissionsDescription_one pb team :
  List.length (member_ids pb) = 1 ->
  permissionsDescription pb team
  = ("Only you can access this playbook", "icon-lock-outline").
Proof. intro E. unfold permissionsDescription. now rewrite E. Qed.

Lemma permissionsDescription_many pb team :
  1 < List.length (member_ids pb) ->
  permissionsDescription pb team
  = (number_toString (List.length (member_ids pb))
       ++ " people can access this playbook",
     "icon-lock-outline").
Proof.
  intro L. unfold permissionsDescription.
  destruct (Nat.eqb_spec (List.length (member_ids pb)) 1) as [E|_]; [lia|].
  destruct (Nat.ltb_spec 1 (List.length (member_ids pb))); [reflexivity|lia].
Qed.

Lemma permissionsDescription_none pb team :
  List.length (member_ids pb) = 0 ->
  permissionsDescription pb team
  = match team with
    | Some t =>
        ("Everyone in " ++ name t ++ " can access this playbook",
         "icon-globe")
    | None =>
        ("Everyone in this team can access this playbook", "icon-globe")
    end.
Proof. intro E. unfold permissionsDescription. now rewrite E. Qed.

Lemma query_permissionsDescription h pb :
  queryByTestId "playbookPermissionsDescription"
    (Playbook h (fetchedState pb))
  = Some (permissionsLine
            (snd (permissionsDescription pb
                    (getTeam (store h) (team_id pb))))
            (fst (permissionsDescription pb
                    (getTeam (store h) (team_id pb))))).
Proof. rewrite Playbook_fetched, selectedTeam_fetched. reflexivity. Qed.

Lemma query_run_playbook h pb :
  queryByTestId "run-playbook" (Playbook h (fetchedState pb))
  = Some (Elem "PrimaryButtonLarger"
            [AHandler "onClick" runPlaybook;
             ABool "disabled" (negb (delete_at pb =? 0)%Z);
             AString "data-testid" "run-playbook"]
            [Elem "RightMarginedIcon" [AOpaque "path"; AOpaque "size"] [];
             Text "Run"]).
Proof. reflexivity. Qed.

Lemma redirects_at_root h pb :
  experimentalFeaturesEnabled h = true -> atRoot h = true ->
  renderedRedirects (Playbook h (fetchedState pb))
  = [match_url h ++ "/usage"].
Proof.
  intros X R. rewrite Playbook_fetched.
  unfold renderedRedirects, content, atRoot in *. cbn.
  rewrite X. cbn. rewrite R. reflexivity.
Qed.

Lemma testIds_fetched h pb :
  renderedTestIds (Playbook h (fetchedState pb))
  = ["playbookPermissionsDescription"; "run-playbook"].
Proof.
  rewrite Playbook_fetched. unfold renderedTestIds, content. cbn.
  destruct (experimentalFeaturesEnabled h); cbn; [|reflexivity].
  destruct (matchPath (location_pathname h) (match_path h) true);
    [reflexivity|].
  destruct (matchPath (location_pathname h) (match_path h ++ "/preview")
              false); [reflexivity|].
  destruct (matchPath (location_pathname h) (match_path h ++ "/usage")
              false); reflexivity.
Qed.

End Tree.

(** C4: with exactly one member the permissions line reads "Only you can
    access this playbook", with [N > 1] members it reads "N people can
    access this playbook", both with the lock icon; this holds for every
    store, hence whether or not the team is known, and for every value
    of the team in the computation of the line itself. *)
Theorem private_permissions_description `{Host} (h : Hooks)
    (pb : PlaybookWithChecklist) :
  let n := List.length (member_ids pb) in
  let shown :=
    queryByTestId "playbookPermissionsDescription"
      (Playbook h (fetchedState pb)) in
  (n = 1 ->
   shown = Some (permissionsLine "icon-lock-outline"
                   "Only you can access this playbook") /\
   forall team, permissionsDescription pb team
                = ("Only you can access this playbook",
                   "icon-lock-outline")) /\
  (1 < n ->
   shown = Some (permissionsLine "icon-lock-outline"
                   (number_toString n
                      ++ " people can access this playbook")) /\
   forall team, permissionsDescription pb team
                = (number_toString n ++ " people can access this playbook",
                   "icon-lock-outline")).
Proof.
  intros n shown. unfold shown. rewrite query_permissionsDescription.
  split; intro L.
  - split.
    + now rewrite permissionsDescription_one.
    + intro team. now apply permissionsDescription_one.
  - split.
    + now rewrite permissionsDescription_many.
    + intro team. now apply permissionsDescription_many.
Qed.

Lemma private_permissions_description_witness :
  queryByTestId "playbookPermissionsDescription"
    (@Playbook exampleHost
       (exampleHooks "/playbooks/playbooks/pb1/usage" false [])
       (fetchedState (examplePlaybook ["me"] 0)))
  = Some (permissionsLine "icon-lock-outline"
            "Only you can access this playbook") /\
  queryByTestId "playbookPermissionsDescription"
    (@Playbook exampleHost
       (exampleHooks "/playbooks/playbooks/pb1/usage" false exampleTeams)
       (fetchedState (examplePlaybook ["me"; "you"] 0)))
  = Some (permissionsLine "icon-lock-outline"
            "2 people can access this playbook").
Proof.
  split.
  - apply (proj1 (@private_permissions_description exampleHost
                    (exampleHooks "/playbooks/playbooks/pb1/usage" false [])
                    (examplePlaybook ["me"] 0))).
    reflexivity.
  - apply (proj2 (@private_permissions_description exampleHost
                    (exampleHooks "/playbooks/playbooks/pb1/usage" false
                       exampleTeams)
                    (examplePlaybook ["me"; "you"] 0))).
    simpl. lia.
Defined.

(** C5: with no member, the permissions line carries the globe icon and
    reads "Everyone in T can access this playbook" when the team of the
    playbook is in the store under the name T, and "Everyone in this team
    can access this playbook" when it is not. *)
Theorem public_permissions_description `{Host} (h : Hooks)
    (pb : PlaybookWithChecklist)
    (Hn : List.length (member_ids pb) = 0) :
  let shown :=
    queryByTestId "playbookPermissionsDescription"
      (Playbook h (fetchedState pb)) in
  (forall t, getTeam (store h) (team_id pb) = Some t ->
     shown = Some (permissionsLine "icon-globe"
                     ("Everyone in " ++ name t
                        ++ " can access this playbook"))) /\
  (getTeam (store h) (team_id pb) = None ->
     shown = Some (permissionsLine "icon-globe"
                     "Everyone in this team can access this playbook")).
Proof.
  intro shown. unfold shown. rewrite query_permissionsDescription.
  rewrite (permissionsDescription_none _ _ Hn).
  split.
  - intros t E. now rewrite E.
  - intro E. now rewrite E.
Qed.

Lemma public_permissions_description_witness :
  queryByTestId "playbookPermissionsDescription"
    (@Playbook exampleHost
       (exampleHooks "/playbooks/playbooks/pb1/usage" false exampleTeams)
       (fetchedState (examplePlaybook [] 0)))
  = Some (permissionsLine "icon-globe"
            "Everyone in Foo can access this playbook") /\
  queryByTestId "playbookPermissionsDescription"
    (@Playbook exampleHost
       (exampleHooks "/playbooks/playbooks/pb1/usage" false [])
       (fetchedState (examplePlaybook [] 0)))
  = Some (permissionsLine "icon-globe"
            "Everyone in this team can access this playbook").
Proof.
  split.
  - apply (proj1 (@public_permissions_description exampleHost
                    (exampleHooks "/playbooks/playbooks/pb1/usage" false
                       exampleTeams)
                    (examplePlaybook [] 0) eq_refl)
             {| name := "Foo"; display_name := "Foo Team" |}).
    reflexivity.
  - apply (proj2 (@public_permissions_description exampleHost
                    (exampleHooks "/playbooks/playbooks/pb1/usage" false [])
                    (examplePlaybook [] 0) eq_refl)).
    reflexivity.
Defined.

(** C6: the element with the test identifier [run-playbook] is the run
    button, and it is disabled exactly when the deletion timestamp of the
    playbook is not zero. *)
Theorem run_disabled_iff_deleted `{Host} (h : Hooks)
    (pb : PlaybookWithChecklist) :
  exists button,
    queryByTestId "run-playbook" (Playbook h (fetchedState pb))
    = Some button /\
    (isDisabled button = true <-> delete_at pb <> 0%Z) /\
    (isDisabled button = false <-> delete_at pb = 0%Z).
Proof.
  eexists. split; [apply query_run_playbook|]. simpl.
  destruct (Z.eqb_spec (delete_at pb) 0) as [E|E]; simpl.
  - split; split; intro X; congruence.
  - split; split; intro X; congruence.
Qed.

(** C7, as stated, fails when the experimental features are off: at the
    root path the view shows the usage panel directly and no redirect. *)
Lemma root_without_experimental_features :
  atRoot (exampleHooks "/playbooks/playbooks/pb1" false exampleTeams) = true /\
  renderedRedirects
    (@Playbook exampleHost
       (exampleHooks "/playbooks/playbooks/pb1" false exampleTeams)
       (fetchedState (examplePlaybook [] 0)))
  <> ["/playbooks/playbooks/pb1/usage"].
Proof. split; [reflexivity | vm_compute; discriminate]. Qed.

(** C7, amended: with the experimental features on, every visit of the
    root path of a fetched playbook returns exactly one redirect, to the
    "usage" sub-path of [match.url]; a list of such visits of one resource
    yields the same redirect each time. *)
Theorem root_redirects_to_usage `{Host}
    (visits : list (Hooks * PlaybookWithChecklist)) (u : string)
    (Hv : Forall (fun v => experimentalFeaturesEnabled (fst v) = true /\
                           atRoot (fst v) = true /\
                           match_url (fst v) = u) visits) :
  Forall (fun v => renderedRedirects (Playbook (fst v) (fetchedState (snd v)))
                   = [u ++ "/usage"]) visits.
Proof.
  induction Hv as [|[h pb] visits (X & R & U) _ IH]; constructor.
  - simpl in *. rewrite <- U. now apply redirects_at_root.
  - exact IH.
Qed.

Lemma root_redirects_to_usage_witness :
  Forall (fun v => renderedRedirects
                     (@Playbook exampleHost (fst v) (fetchedState (snd v)))
                   = ["/playbooks/playbooks/pb1/usage"])
    [(exampleHooks "/playbooks/playbooks/pb1" true exampleTeams,
      examplePlaybook [] 0);
     (exampleHooks "/playbooks/playbooks/pb1/" true [],
      examplePlaybook ["me"] 7)].
Proof.
  apply (@root_redirects_to_usage exampleHost
           [(exampleHooks "/playbooks/playbooks/pb1" true exampleTeams,
             examplePlaybook [] 0);
            (exampleHooks "/playbooks/playbooks/pb1/" true [],
             examplePlaybook ["me"] 7)]
           "/playbooks/playbooks/pb1").
  repeat constructor.
Defined.

(** C8, on the code: the tree of a fetched playbook carries the test
    identifiers [playbookPermissionsDescription] and [run-playbook] and no
    other; [archived-badge] and [edit-playbook] are not among them, also
    for an archived playbook. *)
Theorem Playbook_testIds `{Host} (h : Hooks) (pb : PlaybookWithChecklist) :
  renderedTestIds (Playbook h (fetchedState pb))
  = ["playbookPermissionsDescription"; "run-playbook"] /\
  ~ In "archived-badge" (renderedTestIds (Playbook h (fetchedState pb))) /\
  ~ In "edit-playbook" (renderedTestIds (Playbook h (fetchedState pb))) /\
  queryByTestId "archived-badge" (Playbook h (fetchedState pb)) = None /\
  queryByTestId "edit-playbook" (Playbook h (fetchedState pb)) = None.
Proof.
  assert (A : ~ In "archived-badge"
                 (renderedTestIds (Playbook h (fetchedState pb)))).
  { rewrite testIds_fetched. simpl. intros [E|[E|[]]]; discriminate E. }
  assert (B : ~ In "edit-playbook"
                 (renderedTestIds (Playbook h (fetchedState pb)))).
  { rewrite testIds_fetched. simpl. intros [E|[E|[]]]; discriminate E. }
  repeat split; try assumption.
  - apply testIds_fetched.
  - now apply queryByTestId_absent.
  - now apply queryByTestId_absent.
Qed.

(** * Further properties of the component *)

(** ** Which states render what *)

Section Cases.
Context `{Host}.
Implicit Types (h : Hooks) (s : State) (pb : PlaybookWithChecklist).

Lemma state_eta s :
  s = {| playbook := playbook s; fetchingState := fetchingState s |}.
Proof. now destruct s. Qed.

Lemma content_not_redirect h pb team target :
  content h pb team <> Redirect target.
Proof. unfold content, Fragment, Redirect. discriminate. Qed.

(** The four outcomes of a render, by the state. *)
Lemma Playbook_by_cases h s :
  Playbook h s
  = match fetchingState s, playbook s with
    | loading, _ => RenderNull
    | notFound, _ | fetched, null =>
        RenderElem (Redirect (pluginErrorUrl ErrorPageTypes_PLAYBOOKS))
    | fetched, undefined => RenderThrow "TypeError"
    | fetched, object pb => RenderElem (content h pb (selectedTeam h s))
    end.
Proof.
  unfold Playbook.
  destruct (fetchingState s), (playbook s); reflexivity.
Qed.

Lemma defined_never_throws h s e :
  playbook s <> undefined -> Playbook h s <> RenderThrow e.
Proof.
  intro D. rewrite Playbook_by_cases.
  destruct (fetchingState s), (playbook s); try discriminate.
  now contradiction D.
Qed.

Lemma not_loading_not_null h s :
  fetchingState s <> loading -> Playbook h s <> RenderNull.
Proof.
  intro L. rewrite Playbook_by_cases.
  destruct (fetchingState s), (playbook s); try discriminate;
    now contradiction L.
Qed.

End Cases.

(** X1: the converse of the guards.  A render returns [null] only while
    the status is loading, returns the redirect to the error page only
    when the status is not-found or a [null] playbook is stored with
    status fetched, throws only with [undefined] stored and status
    fetched, and returns any other tree only with status fetched and a
    playbook object stored, whose tree it then is. *)
Theorem Playbook_render_only_if `{Host} (h : Hooks) (s : State) :
  (Playbook h s = RenderNull <-> fetchingState s = loading) /\
  (Playbook h s
   = RenderElem (Redirect (pluginErrorUrl ErrorPageTypes_PLAYBOOKS))
   <-> fetchingState s = notFound
       \/ (fetchingState s = fetched /\ playbook s = null)) /\
  ((exists e, Playbook h s = RenderThrow e)
   <-> fetchingState s = fetched /\ playbook s = undefined) /\
  (forall n,
     Playbook h s = RenderElem n ->
     n <> Redirect (pluginErrorUrl ErrorPageTypes_PLAYBOOKS) ->
     exists pb, s = fetchedState pb
                /\ n = content h pb (getTeam (store h) (team_id pb))).
Proof.
  rewrite Playbook_by_cases. destruct s as [p f]. unfold fetchedState.
  simpl. split; [|split; [|split]].
  - destruct f, p; split; intro E; try reflexivity; discriminate E.
  - destruct f, p as [| |pb]; split; intro E;
      try reflexivity; try discriminate E;
      try (now left); try (right; now split);
      try (destruct E as [E|[E1 E2]]; discriminate).
  - destruct f, p; split; intro E;
      try (destruct E as [e E]; discriminate E);
      try (destruct E as [E1 E2]; discriminate);
      try (now split); try (now exists "TypeError").
  - intros n E N. destruct f, p as [| |pb]; try discriminate E;
      try (injection E as <-; now contradiction N).
    injection E as <-. exists pb. split; [reflexivity|].
    f_equal. apply (selectedTeam_fetched h pb).
Qed.

Lemma Playbook_render_only_if_witness :
  exists pb,
    fetchedState (examplePlaybook ["me"] 0) = fetchedState pb /\
    content (exampleHooks "/playbooks/playbooks/pb1" false exampleTeams)
      (examplePlaybook ["me"] 0)
      (Some {| name := "Foo"; display_name := "Foo Team" |})
    = content (exampleHooks "/playbooks/playbooks/pb1" false exampleTeams)
        pb (@getTeam exampleHost exampleTeams (team_id pb)).
Proof.
  apply (proj2 (proj2 (proj2
           (@Playbook_render_only_if exampleHost
              (exampleHooks "/playbooks/playbooks/pb1" false exampleTeams)
              (fetchedState (examplePlaybook ["me"] 0)))))).
  - reflexivity.
  - discriminate.
Defined.

(** ** The routed panel *)

Section Panel.
Context `{Host}.
Implicit Types (h : Hooks) (pb : PlaybookWithChecklist).

Lemma panel_counts h pb :
  let r := Playbook h (fetchedState pb) in
  (renderedRedirects r, renderedCount "h4" r,
   renderedCount "PlaybookUsage" r)
  = if negb (experimentalFeaturesEnabled h) then ([], 0, 1)
    else if atRoot h then ([match_url h ++ "/usage"], 0, 0)
    else if atPreview h then ([], 1, 0)
    else if atUsage h then ([], 0, 1)
    else ([], 0, 0).
Proof.
  rewrite Playbook_fetched.
  unfold renderedRedirects, renderedCount, content, atRoot, atPreview,
    atUsage.
  cbn. destruct (experimentalFeaturesEnabled h); cbn; [|reflexivity].
  destruct (matchPath (location_pathname h) (match_path h) true);
    [reflexivity|].
  destruct (matchPath (location_pathname h) (match_path h ++ "/preview")
              false); [reflexivity|].
  destruct (matchPath (location_pathname h) (match_path h ++ "/usage")
              false); reflexivity.
Qed.

End Panel.

(** X2: a fetched view holds a redirect exactly when the experimental
    features are on and the location is the root path, and then exactly
    the one to the "usage" sub-path; at every other location, and with the
    features off, it holds none. *)
Theorem redirect_only_at_root `{Host} (h : Hooks)
    (pb : PlaybookWithChecklist) :
  renderedRedirects (Playbook h (fetchedState pb))
  = if experimentalFeaturesEnabled h && atRoot h
    then [match_url h ++ "/usage"] else [].
Proof.
  pose proof (panel_counts h pb) as C. cbv zeta in C.
  destruct (experimentalFeaturesEnabled h), (atRoot h); simpl in *;
    try (injection C as C _ _; exact C).
  destruct (atPreview h), (atUsage h); injection C as C _ _; exact C.
Qed.

(** X3: with the experimental features on, a location that matches none
    of the three routes gets the header and the navigation bar but no
    panel: no redirect to a default, no usage panel, no placeholder. *)
Theorem unmatched_location_shows_no_panel `{Host} (h : Hooks)
    (pb : PlaybookWithChecklist)
    (Hx : experimentalFeaturesEnabled h = true)
    (Hr : atRoot h = false) (Hp : atPreview h = false)
    (Hu : atUsage h = false) :
  let r := Playbook h (fetchedState pb) in
  renderedRedirects r = [] /\
  renderedCount "PlaybookUsage" r = 0 /\
  renderedCount "h4" r = 0 /\
  renderedCount "Navbar" r = 1 /\
  renderedCount "TopContainer" r = 1.
Proof.
  intro r. pose proof (panel_counts h pb) as C. cbv zeta in C.
  rewrite Hx, Hr, Hp, Hu in C. simpl in C. injection C as C1 C2 C3.
  repeat split; try assumption.
  - unfold r. rewrite Playbook_fetched.
    unfold renderedCount, content, atRoot, atPreview, atUsage in *.
    cbn. rewrite Hx. cbn. now rewrite Hr, Hp, Hu.
  - unfold r. rewrite Playbook_fetched.
    unfold renderedCount, content, atRoot, atPreview, atUsage in *.
    cbn. rewrite Hx. cbn. now rewrite Hr, Hp, Hu.
Qed.

Lemma unmatched_location_shows_no_panel_witness :
  renderedRedirects
    (@Playbook exampleHost
       (exampleHooks "/playbooks/playbooks/pb1/other" true exampleTeams)
       (fetchedState (examplePlaybook [] 0))) = [] /\
  renderedCount "PlaybookUsage"
    (@Playbook exampleHost
       (exampleHooks "/playbooks/playbooks/pb1/other" true exampleTeams)
       (fetchedState (examplePlaybook [] 0))) = 0.
Proof.
  pose proof (@unmatched_location_shows_no_panel exampleHost
                (exampleHooks "/playbooks/playbooks/pb1/other" true
                   exampleTeams)
                (examplePlaybook [] 0) eq_refl eq_refl eq_refl eq_refl) as W.
  split; apply W.
Defined.

(** X4: the routes exclude each other.  A fetched view holds at most one
    of: the redirect, the "Site under construction" placeholder, the usage
    panel; when the root path matches, the redirect wins even if a later
    route matches too. *)
Theorem at_most_one_panel `{Host} (h : Hooks) (pb : PlaybookWithChecklist) :
  let r := Playbook h (fetchedState pb) in
  List.length (renderedRedirects r) + renderedCount "h4" r
    + renderedCount "PlaybookUsage" r <= 1 /\
  (experimentalFeaturesEnabled h && atRoot h = true ->
   renderedCount "h4" r = 0 /\ renderedCount "PlaybookUsage" r = 0).
Proof.
  intro r. pose proof (panel_counts h pb) as C. cbv zeta in C. fold r in C.
  set (a := renderedRedirects r) in *.
  set (b := renderedCount "h4" r) in *.
  set (c := renderedCount "PlaybookUsage" r) in *.
  clearbody a b c.
  destruct (experimentalFeaturesEnabled h), (atRoot h), (atPreview h),
    (atUsage h); simpl in C; injection C as -> -> ->; simpl;
    split; try lia; intro X; try discriminate X; now split.
Qed.

Lemma at_most_one_panel_witness :
  renderedCount "PlaybookUsage"
    (@Playbook exampleHost
       (exampleHooks "/playbooks/playbooks/pb1" true exampleTeams)
       (fetchedState (examplePlaybook [] 0))) = 0.
Proof.
  apply (proj2 (@at_most_one_panel exampleHost
                  (exampleHooks "/playbooks/playbooks/pb1" true exampleTeams)
                  (examplePlaybook [] 0))).
  reflexivity.
Defined.



(** ** The click handlers *)

Lemma or_empty (x : string) : (if truthy x then x else "") = x.
Proof.
  unfold truthy. destruct (x =? "") eqn:E; simpl; [|reflexivity].
  apply String.eqb_eq in E. now subst.
Qed.

Lemma truthy_nonempty (x : string) : truthy x = true <-> x <> "".
Proof.
  unfold truthy. destruct (String.eqb_spec x ""); simpl; split;
    intro E; try reflexivity; try discriminate E; try assumption.
  now contradiction E.
Qed.

Lemma selectedTeam_object `{Host} (h : Hooks) (s : State)
    (pb : PlaybookWithChecklist) :
  playbook s = object pb ->
  selectedTeam h s = getTeam (store h) (team_id pb).
Proof. intro P. unfold selectedTeam. now rewrite P, or_empty. Qed.

(** X6: whenever the run handler navigates, a playbook with a non-empty
    identifier is stored and its team is in the store; the handler then
    makes exactly two calls, the telemetry event
    [playbook_dashboard_run_clicked] for that identifier first and then
    the navigation to [/<team name>/_playbooks/<identifier>/run], and
    throws nothing. *)
Theorem runPlaybook_navigates_after_telemetry `{Host} (h : Hooks)
    (s : State) (u : string)
    (Hu : In (navigateToUrl u) (calls (invoke runPlaybook h s))) :
  exists pb t,
    playbook s = object pb /\ id pb <> "" /\
    getTeam (store h) (team_id pb) = Some t /\
    u = "/" ++ name t ++ "/_playbooks/" ++ id pb ++ "/run" /\
    invoke runPlaybook h s
    = {| calls := [telemetryEventForPlaybook (id pb)
                     "playbook_dashboard_run_clicked";
                   navigateToUrl u];
         thrown := None |}.
Proof.
  simpl in Hu. unfold runPlaybook_body in Hu.
  destruct (playbook s) as [| |pb] eqn:P; try now destruct Hu.
  pose proof (selectedTeam_object h s pb P) as T.
  destruct (truthy (id pb)) eqn:I; [|now destruct Hu].
  destruct (selectedTeam h s) as [t|] eqn:S.
  - simpl in Hu. destruct Hu as [E|[E|[]]]; [discriminate E|].
    injection E as E. rewrite !or_empty in E. subst u.
    exists pb, t. repeat split.
    + now apply truthy_nonempty.
    + now rewrite <- T.
    + simpl. unfold runPlaybook_body. rewrite P, I, S, !or_empty.
      reflexivity.
  - simpl in Hu. destruct Hu as [E|[]]. discriminate E.
Qed.

Lemma runPlaybook_navigates_after_telemetry_witness :
  exists pb t,
    playbook (fetchedState (examplePlaybook [] 0)) = object pb /\
    id pb <> "" /\
    @getTeam exampleHost exampleTeams (team_id pb) = Some t /\
    "/Foo/_playbooks/pb1/run"
    = "/" ++ name t ++ "/_playbooks/" ++ id pb ++ "/run" /\
    @invoke exampleHost runPlaybook
      (exampleHooks "/playbooks/playbooks/pb1" false exampleTeams)
      (fetchedState (examplePlaybook [] 0))
    = {| calls := [telemetryEventForPlaybook (id pb)
                     "playbook_dashboard_run_clicked";
                   navigateToUrl "/Foo/_playbooks/pb1/run"];
         thrown := None |}.
Proof.
  apply (@runPlaybook_navigates_after_telemetry exampleHost
           (exampleHooks "/playbooks/playbooks/pb1" false exampleTeams)
           (fetchedState (examplePlaybook [] 0))
           "/Foo/_playbooks/pb1/run").
  simpl. right. left. reflexivity.
Defined.

(** X7: for a fetched, active playbook whose team is not in the store,
    the view still renders, with the run button enabled; running the
    handler records the telemetry event and then throws, and no
    navigation is made. *)
Theorem runPlaybook_unknown_team_throws `{Host} (h : Hooks)
    (pb : PlaybookWithChecklist)
    (Hid : id pb <> "") (Hactive : delete_at pb = 0%Z)
    (Hteam : getTeam (store h) (team_id pb) = None) :
  (exists button,
     queryByTestId "run-playbook" (Playbook h (fetchedState pb))
     = Some button /\ isDisabled button = false) /\
  invoke runPlaybook h (fetchedState pb)
  = {| calls := [telemetryEventForPlaybook (id pb)
                   "playbook_dashboard_run_clicked"];
       thrown := Some "TypeError" |}.
Proof.
  split.
  - eexists. split; [apply query_run_playbook|].
    simpl. now rewrite Hactive.
  - simpl. unfold runPlaybook_body. simpl.
    rewrite (selectedTeam_fetched h pb), Hteam.
    apply truthy_nonempty in Hid. now rewrite Hid.
Qed.

Lemma runPlaybook_unknown_team_throws_witness :
  @invoke exampleHost runPlaybook
    (exampleHooks "/playbooks/playbooks/pb1" false [])
    (fetchedState (examplePlaybook [] 0))
  = {| calls := [telemetryEventForPlaybook "pb1"
                   "playbook_dashboard_run_clicked"];
       thrown := Some "TypeError" |}.
Proof.
  apply (@runPlaybook_unknown_team_throws exampleHost
           (exampleHooks "/playbooks/playbooks/pb1" false [])
           (examplePlaybook [] 0)).
  - discriminate.
  - reflexivity.
  - reflexivity.
Defined.

(** X8: the run handler makes no call at all exactly when no playbook
    object is stored or the stored playbook has an empty identifier; it
    throws nothing then. *)
Theorem runPlaybook_silent_iff `{Host} (h : Hooks) (s : State) :
  (calls (invoke runPlaybook h s) = []
   <-> forall pb, playbook s = object pb -> id pb = "") /\
  (calls (invoke runPlaybook h s) = [] ->
   thrown (invoke runPlaybook h s) = None).
Proof.
  simpl. unfold runPlaybook_body.
  destruct (playbook s) as [| |pb] eqn:P.
  - split; [split|]; intros; try reflexivity; discriminate.
  - split; [split|]; intros; try reflexivity; discriminate.
  - destruct (truthy (id pb)) eqn:I.
    + apply truthy_nonempty in I.
      destruct (selectedTeam h s); simpl; (split; [split|]); intro E;
        try discriminate E; exfalso; apply I; now apply E.
    + simpl. split; [split|]; intros; try reflexivity.
      match goal with E : object _ = object _ |- _ => injection E as <- end.
      unfold truthy in I. now destruct (String.eqb_spec (id pb) "").
Qed.

Lemma runPlaybook_silent_iff_witness :
  calls (@invoke exampleHost runPlaybook
           (exampleHooks "/playbooks/playbooks/pb1" false exampleTeams)
           initialState) = [].
Proof.
  apply (proj1 (@runPlaybook_silent_iff exampleHost
                  (exampleHooks "/playbooks/playbooks/pb1" false exampleTeams)
                  initialState)).
  intros pb E. discriminate E.
Defined.

(** X9: the run handler reads the identifier and the team of the stored
    playbook and nothing else: it does the same for two playbooks that
    agree on these, whatever their deletion timestamps, members and
    titles, and whatever the fetch status. *)
Theorem runPlaybook_ignores_archive `{Host} (h : Hooks)
    (pb pb' : PlaybookWithChecklist) (f f' : FetchingStateType)
    (Hid : id pb = id pb') (Hteam : team_id pb = team_id pb') :
  invoke runPlaybook h {| playbook := object pb; fetchingState := f |}
  = invoke runPlaybook h {| playbook := object pb'; fetchingState := f' |}.
Proof.
  simpl. unfold runPlaybook_body, selectedTeam. simpl.
  now rewrite Hid, Hteam.
Qed.

Lemma runPlaybook_ignores_archive_witness :
  @invoke exampleHost runPlaybook
    (exampleHooks "/playbooks/playbooks/pb1" false exampleTeams)
    {| playbook := object (examplePlaybook [] 0); fetchingState := fetched |}
  = @invoke exampleHost runPlaybook
      (exampleHooks "/playbooks/playbooks/pb1" false exampleTeams)
      {| playbook := object (examplePlaybook ["me"] 1650000000000);
         fetchingState := notFound |}.
Proof.
  apply (@runPlaybook_ignores_archive exampleHost
           (exampleHooks "/playbooks/playbooks/pb1" false exampleTeams)
           (examplePlaybook [] 0) (examplePlaybook ["me"] 1650000000000)
           fetched notFound eq_refl eq_refl).
Defined.

(** ** The life of the component, continued *)

Lemma runEffect_state (p : string) (m : Mounted) :
  state (runEffect p m) = state m.
Proof. unfold runEffect. now destruct (fetchData p). Qed.

Lemma handle_route_state (m : Mounted) (q : string) :
  state (handle m (RouteParam q)) = state m.
Proof.
  simpl. destruct (q =? dep_playbookId m); [reflexivity|].
  apply runEffect_state.
Qed.

Lemma remove_nth_length {A} (n : nat) (l : list A) :
  List.length (remove_nth n l) <= List.length l.
Proof.
  revert n. induction l as [|x l IH]; intros [|n]; simpl; auto.
  specialize (IH n). lia.
Qed.

(** An invariant of states that every setter call of [fetchData] keeps,
    for the results [R] allows, is kept along every run, in the states
    rendered on the way and in the final one. *)
Lemma run_invariant (I : State -> Prop) (R : Event -> Prop) :
  (forall n r s u, R (Settle n r) -> I s -> In u (fetchData_resume r) ->
                   I (applySetState s u)) ->
  forall events m,
    pendingFromFetchData m -> I (state m) -> Forall R events ->
    Forall I (renderedStates events m) /\ I (state (run events m)).
Proof.
  intros step events.
  induction events as [|e events IH]; intros m P Im F; simpl.
  - now split.
  - inversion F as [|e' es Re Fes]; subst.
    assert (S : Forall I (statesOf m e) /\ I (state (handle m e))).
    { destruct e as [q|n r].
      - rewrite handle_route_state. split; [|exact Im].
        simpl. now constructor.
      - simpl. destruct (nth_error (pending m) n) as [k|] eqn:E;
          [|now split].
        assert (K : k = fetchData_resume).
        { apply nth_error_In in E. unfold pendingFromFetchData in P.
          rewrite Forall_forall in P. now apply P. }
        subst k. simpl.
        destruct r as [v|err]; simpl.
        + assert (I1 : I (applySetState (state m) (setPlaybook v))).
          { apply (step n (Resolved v)); simpl; auto. }
          assert (I2 : I (applySetState
                            (applySetState (state m) (setPlaybook v))
                            (setFetchingState fetched))).
          { apply (step n (Resolved v)); simpl; auto. }
          split; [|exact I2]. repeat constructor; assumption.
        + assert (I1 : I (applySetState (state m)
                            (setFetchingState notFound))).
          { apply (step n (Rejected err)); simpl; auto. }
          split; [|exact I1]. repeat constructor; assumption. }
    destruct S as [S1 S2].
    destruct (IH (handle m e) (handle_pending m e P) S2 Fes) as [T1 T2].
    split; [|exact T2]. apply Forall_app. now split.
Qed.

(** X10: if no fetch resolves with [undefined], no render throws, at any
    point of the life of the component: neither a render of a state in
    between two setter calls nor one of the final state, under any hooks
    values. *)
Theorem no_render_throws `{Host} (p : string) (events : list Event)
    (Hev : Forall resolvesDefined events) :
  Forall (fun s => forall h e, Playbook h s <> RenderThrow e)
    (renderedStates events (mount p)) /\
  (forall h e, Playbook h (state (run events (mount p))) <> RenderThrow e).
Proof.
  destruct (run_invariant (fun s => playbook s <> undefined)
              resolvesDefined) with (events := events) (m := mount p)
    as [A B].
  - intros n r s u Rr Is Iu. destruct r as [v|err]; simpl in Iu.
    + destruct Iu as [<-|[<-|[]]]; simpl; [|exact Is].
      intro E. subst v. exact Rr.
    + destruct Iu as [<-|[]]. exact Is.
  - apply mount_pending.
  - unfold mount. rewrite runEffect_state. discriminate.
  - exact Hev.
  - split.
    + eapply Forall_impl; [|exact A]. intros s D h e.
      now apply defined_never_throws.
    + intros h e. now apply defined_never_throws.
Qed.

Lemma no_render_throws_witness :
  @Playbook exampleHost
    (exampleHooks "/playbooks/playbooks/pb2" true exampleTeams)
    (state (run [RouteParam "pb2"; Settle 1 (Resolved null);
                 Settle 0 (Rejected "timeout")] (mount "pb1")))
  <> RenderThrow "TypeError".
Proof.
  apply (proj2 (@no_render_throws exampleHost "pb1"
                  [RouteParam "pb2"; Settle 1 (Resolved null);
                   Settle 0 (Rejected "timeout")]
                  ltac:(repeat constructor))).
Defined.

(** X11: the status never returns to loading.  Once a mounted component
    has left the loading status, no later event brings it back, in the
    states in between or at the end, so the view never returns [null]
    again, also while a fetch for another playbook is in flight. *)
Theorem status_never_returns_to_loading `{Host} (p : string)
    (events later : list Event)
    (Hl : fetchingState (state (run events (mount p))) <> loading) :
  let m := run events (mount p) in
  Forall (fun s => fetchingState s <> loading /\
                   forall h, Playbook h s <> RenderNull)
    (renderedStates later m) /\
  fetchingState (state (run later m)) <> loading /\
  (forall h, Playbook h (state (run later m)) <> RenderNull).
Proof.
  intro m.
  destruct (run_invariant (fun s => fetchingState s <> loading)
              (fun _ => True)) with (events := later) (m := m)
    as [A B].
  - intros n r s u _ Is Iu. destruct r as [v|err]; simpl in Iu.
    + destruct Iu as [<-|[<-|[]]]; simpl; [exact Is|discriminate].
    + destruct Iu as [<-|[]]. simpl. discriminate.
  - apply run_pending, mount_pending.
  - exact Hl.
  - apply Forall_forall. intros. exact I.
  - split; [|split].
    + eapply Forall_impl; [|exact A]. intros s L. split; [exact L|].
      intro h. now apply not_loading_not_null.
    + exact B.
    + intro h. now apply not_loading_not_null.
Qed.

Lemma status_never_returns_to_loading_witness :
  fetchingState
    (state (run [RouteParam "pb2"]
              (run [Settle 0 (Rejected "gone")] (mount "pb1"))))
  <> loading.
Proof.
  apply (@status_never_returns_to_loading exampleHost "pb1"
           [Settle 0 (Rejected "gone")] [RouteParam "pb2"]).
  discriminate.
Defined.

(** X12: changes of the route parameter alone, however many, leave the
    stored playbook and the status as they are: the previous playbook, or
    the error redirect, stays on screen until a fetch settles. *)
Theorem navigation_keeps_state `{Host} (events : list Event) (m : Mounted)
    (Hev : Forall (fun e => isRouteParam e = true) events) :
  state (run events m) = state m /\
  (forall h, Playbook h (state (run events m)) = Playbook h (state m)).
Proof.
  assert (E : state (run events m) = state m).
  { revert m. induction Hev as [|e events R _ IH]; intro m; simpl;
      [reflexivity|].
    unfold run in IH. rewrite IH. destruct e as [q|n r];
      [apply handle_route_state|discriminate R]. }
  split; [exact E|]. intro h. now rewrite E.
Qed.

Lemma navigation_keeps_state_witness :
  state (run [RouteParam "pb2"; RouteParam ""; RouteParam "pb3"]
           (run [Settle 0 (Resolved (object (examplePlaybook [] 0)))]
              (mount "pb1")))
  = fetchedState (examplePlaybook [] 0).
Proof.
  apply (@navigation_keeps_state exampleHost
           [RouteParam "pb2"; RouteParam ""; RouteParam "pb3"]
           (run [Settle 0 (Resolved (object (examplePlaybook [] 0)))]
              (mount "pb1"))).
  repeat constructor.
Defined.

Lemma runEffect_issued (p : string) (m : Mounted) :
  issued (runEffect p m)
  = (issued m ++ (if truthy p then [p] else []))%list /\
  List.length (pending (runEffect p m))
  = List.length (pending m) + (if truthy p then 1 else 0).
Proof.
  unfold runEffect, fetchData. destruct (truthy p); simpl.
  - rewrite length_app. simpl. now split.
  - rewrite app_nil_r. split; [reflexivity|lia].
Qed.

(** X13: [clientFetchPlaybook] is never called with the empty identifier,
    the calls in flight never outnumber the calls made, and there is at
    most one call for the mount and one for each value the route
    parameter takes. *)
Theorem fetches_issued (p : string) (events : list Event) :
  let m := run events (mount p) in
  Forall (fun i => i <> "") (issued m) /\
  List.length (pending m) <= List.length (issued m) /\
  List.length (issued m)
  <= 1 + List.length (filter isRouteParam events).
Proof.
  assert (G : forall events m,
             Forall (fun i => i <> "") (issued m) ->
             List.length (pending m) <= List.length (issued m) ->
             Forall (fun i => i <> "") (issued (run events m)) /\
             List.length (pending (run events m))
             <= List.length (issued (run events m)) /\
             List.length (issued (run events m))
             <= List.length (issued m)
                + List.length (filter isRouteParam events)).
  { clear. intro events.
    induction events as [|e events IH]; intros m F L; simpl.
    - repeat split; [exact F|exact L|lia].
    - assert (S : Forall (fun i => i <> "") (issued (handle m e)) /\
                  List.length (pending (handle m e))
                  <= List.length (issued (handle m e)) /\
                  List.length (issued (handle m e))
                  <= List.length (issued m)
                     + (if isRouteParam e then 1 else 0)).
      { destruct e as [q|n r]; simpl.
        - destruct (q =? dep_playbookId m); [repeat split; auto; lia|].
          destruct (runEffect_issued q m) as [-> ->].
          destruct (truthy q) eqn:T.
          + repeat split.
            * apply Forall_app. split; [exact F|]. constructor; [|auto].
              now apply truthy_nonempty.
            * rewrite length_app. simpl. lia.
            * rewrite length_app. simpl. lia.
          + rewrite app_nil_r. repeat split; auto; lia.
        - destruct (nth_error (pending m) n); simpl;
            [|repeat split; auto; lia].
          repeat split; auto; try lia.
          pose proof (remove_nth_length n (pending m)). lia. }
      destruct S as (S1 & S2 & S3).
      destruct (IH (handle m e) S1 S2) as (T1 & T2 & T3).
      repeat split; [exact T1|exact T2|].
      destruct (isRouteParam e); simpl; lia. }
  intro m. unfold m.
  destruct (G events (mount p)) as (A & B & C).
  - unfold mount. destruct (runEffect_issued p
      {| state := initialState; dep_playbookId := p;
         issued := []; pending := [] |}) as [-> _].
    simpl. destruct (truthy p) eqn:T; constructor; [|constructor].
    now apply truthy_nonempty.
  - unfold mount. destruct (runEffect_issued p
      {| state := initialState; dep_playbookId := p;
         issued := []; pending := [] |}) as [-> ->].
    simpl. destruct (truthy p); simpl; lia.
  - repeat split; [exact A|exact B|].
    assert (List.length (issued (mount p)) <= 1); [|lia].
    unfold mount. destruct (runEffect_issued p
      {| state := initialState; dep_playbookId := p;
         issued := []; pending := [] |}) as [-> _].
    simpl. destruct (truthy p); simpl; lia.
Qed.

(** X14: no retry.  While the route parameter keeps its value, no fetch
    is issued, whatever fetches settle and however they settle: the list
    of calls made and the dependency of the effect stay as they are, and
    the calls in flight can only become fewer. *)
Theorem no_fetch_without_navigation (events : list Event) (m : Mounted)
    (Hev : Forall (keepsParam (dep_playbookId m)) events) :
  issued (run events m) = issued m /\
  dep_playbookId (run events m) = dep_playbookId m /\
  List.length (pending (run events m)) <= List.length (pending m).
Proof.
  revert m Hev. induction events as [|e events IH]; intros m F; simpl.
  - repeat split. lia.
  - inversion F as [|e' es K Fes]; subst.
    assert (S : issued (handle m e) = issued m /\
                dep_playbookId (handle m e) = dep_playbookId m /\
                List.length (pending (handle m e))
                <= List.length (pending m)).
    { destruct e as [q|n r]; simpl in *.
      - rewrite K, String.eqb_refl. repeat split. lia.
      - destruct (nth_error (pending m) n); simpl; repeat split; try lia.
        apply remove_nth_length. }
    destruct S as (S1 & S2 & S3).
    rewrite <- S2 in Fes. destruct (IH (handle m e) Fes) as (T1 & T2 & T3).
    unfold run in *. rewrite T1, T2. repeat split; try assumption. lia.
Qed.

Lemma no_fetch_without_navigation_witness :
  issued (run [Settle 0 (Rejected "500"); RouteParam "pb1";
               Settle 0 (Rejected "500")] (mount "pb1"))
  = ["pb1"].
Proof.
  apply (no_fetch_without_navigation
           [Settle 0 (Rejected "500"); RouteParam "pb1";
            Settle 0 (Rejected "500")] (mount "pb1")).
  repeat constructor.
Defined.

Lemma mount_then_navigate (a b : string) :
  truthy a = true -> truthy b = true -> a <> b ->
  handle (mount a) (RouteParam b)
  = {| state := initialState; dep_playbookId := b;
       issued := [a; b];
       pending := [fetchData_resume; fetchData_resume] |}.
Proof.
  intros Ta Tb N. rewrite (mount_truthy _ Ta). simpl.
  destruct (String.eqb_spec b a) as [E|_]; [now contradiction N|].
  unfold runEffect, fetchData. now rewrite Tb.
Qed.

(** X15: the response that arrives last wins.  When the route goes from
    playbook [a] to playbook [b] while the fetch for [a] is in flight and
    the fetch for [b] resolves first, the late response for [a] replaces
    the playbook of [b]: the view is left showing [a] under the route of
    [b], with nothing in flight that could correct it. *)
Theorem stale_response_wins (a b : string)
    (va vb : Nullable PlaybookWithChecklist)
    (Ha : truthy a = true) (Hb : truthy b = true) (Hab : a <> b) :
  run [RouteParam b; Settle 1 (Resolved vb); Settle 0 (Resolved va)]
    (mount a)
  = {| state := {| playbook := va; fetchingState := fetched |};
       dep_playbookId := b;
       issued := [a; b];
       pending := [] |}.
Proof.
  unfold run. cbn [fold_left].
  now rewrite (mount_then_navigate a b Ha Hb Hab).
Qed.

Lemma stale_response_wins_witness :
  playbook
    (state (run [RouteParam "pb2";
                 Settle 1 (Resolved (object (examplePlaybook ["b"] 0)));
                 Settle 0 (Resolved (object (examplePlaybook ["a"] 0)))]
              (mount "pb1")))
  = object (examplePlaybook ["a"] 0).
Proof.
  rewrite (stale_response_wins "pb1" "pb2"
             (object (examplePlaybook ["a"] 0))
             (object (examplePlaybook ["b"] 0))
             eq_refl eq_refl).
  - reflexivity.
  - discriminate.
Defined.

(** X16: a late failure undoes a success.  In the same situation, when
    the superseded fetch for [a] is rejected after the fetch for [b] has
    resolved, the status becomes not-found although the playbook of [b]
    is stored, and the view returns the redirect to the error page. *)
Theorem stale_failure_overrides_success `{Host} (h : Hooks) (a b e : string)
    (vb : Nullable PlaybookWithChecklist)
    (Ha : truthy a = true) (Hb : truthy b = true) (Hab : a <> b) :
  let m := run [RouteParam b; Settle 1 (Resolved vb); Settle 0 (Rejected e)]
             (mount a) in
  state m = {| playbook := vb; fetchingState := notFound |} /\
  pending m = [] /\
  Playbook h (state m)
  = RenderElem (Redirect (pluginErrorUrl ErrorPageTypes_PLAYBOOKS)).
Proof.
  unfold run. cbn [fold_left].
  rewrite (mount_then_navigate a b Ha Hb Hab). simpl.
  split; [reflexivity|]. split; [reflexivity|].
  now apply Playbook_notFound.
Qed.

Lemma stale_failure_overrides_success_witness :
  @Playbook exampleHost
    (exampleHooks "/playbooks/playbooks/pb2" false exampleTeams)
    (state (run [RouteParam "pb2";
                 Settle 1 (Resolved (object (examplePlaybook [] 0)));
                 Settle 0 (Rejected "aborted")]
              (mount "pb1")))
  = RenderElem (Redirect "/playbooks/error?type=playbooks").
Proof.
  apply (@stale_failure_overrides_success exampleHost
           (exampleHooks "/playbooks/playbooks/pb2" false exampleTeams)
           "pb1" "pb2" "aborted" (object (examplePlaybook [] 0))
           eq_refl eq_refl).
  discriminate.
Defined.

(** ** The permissions line, continued *)

(** X17: the permissions line depends on the number of members and on
    the name of the team, and on nothing else: not on who the members
    are (a single member is told "Only you" whoever it is), not on the
    display name of the team. *)
Theorem permissions_by_count_and_team_name
    (pb pb' : PlaybookWithChecklist) (team team' : option Team)
    (Hn : List.length (member_ids pb) = List.length (member_ids pb'))
    (Ht : option_map name team = option_map name team') :
  permissionsDescription pb team = permissionsDescription pb' team'.
Proof.
  unfold permissionsDescription. rewrite Hn.
  destruct (Nat.eqb (List.length (member_ids pb')) 1); [reflexivity|].
  destruct (Nat.ltb 1 (List.length (member_ids pb'))); [reflexivity|].
  destruct team as [t|], team' as [t'|]; simpl in Ht;
    try discriminate Ht; [|reflexivity].
  injection Ht as Ht. now rewrite Ht.
Qed.

Lemma permissions_by_count_and_team_name_witness :
  permissionsDescription (examplePlaybook ["someone else"] 0)
    (Some {| name := "Foo"; display_name := "Foo Team" |})
  = permissionsDescription (examplePlaybook ["me"] 5)
      (Some {| name := "Foo"; display_name := "Another display name" |}).
Proof.
  apply (permissions_by_count_and_team_name
           (examplePlaybook ["someone else"] 0) (examplePlaybook ["me"] 5)
           (Some {| name := "Foo"; display_name := "Foo Team" |})
           (Some {| name := "Foo"; display_name := "Another display name" |})
           eq_refl eq_refl).
Defined.

(** X18: the icon of the permissions line is the lock exactly when the
    playbook has at least one member, and the globe exactly when it has
    none; there is no third icon. *)
Theorem lock_icon_iff_members `{Host} (h : Hooks)
    (pb : PlaybookWithChecklist) :
  exists icon text,
    queryByTestId "playbookPermissionsDescription"
      (Playbook h (fetchedState pb))
    = Some (permissionsLine icon text) /\
    (icon = "icon-lock-outline" <-> member_ids pb <> []) /\
    (icon = "icon-globe" <-> member_ids pb = []).
Proof.
  eexists. eexists. split; [apply query_permissionsDescription|].
  unfold permissionsDescription.
  destruct (member_ids pb) as [|x [|y l]]; simpl.
  - destruct (getTeam (store h) (team_id pb)); simpl;
      repeat split; intro E; try discriminate E; try reflexivity;
      now contradiction E.
  - repeat split; intro E; try discriminate E; try discriminate;
      try reflexivity; now contradiction E.
  - repeat split; intro E; try discriminate E; try discriminate;
      try reflexivity; now contradiction E.
Qed.

(** ** What the state says about the past *)

(** An invariant of states that every whole continuation of [fetchData]
    keeps, for the results [R] allows, holds after every run. *)
Lemma run_boundary_invariant (I : State -> Prop) (R : Event -> Prop) :
  (forall n r s, R (Settle n r) -> I s ->
                 I (commit (fetchData_resume r) s)) ->
  forall events m,
    pendingFromFetchData m -> I (state m) -> Forall R events ->
    I (state (run events m)).
Proof.
  intros step events.
  induction events as [|e events IH]; intros m P Im F; simpl;
    [exact Im|].
  inversion F as [|e' es Re Fes]; subst.
  apply IH; [now apply handle_pending| |exact Fes].
  destruct e as [q|n r].
  - now rewrite handle_route_state.
  - simpl. destruct (nth_error (pending m) n) as [k|] eqn:E; [|exact Im].
    assert (K : k = fetchData_resume).
    { apply nth_error_In in E. unfold pendingFromFetchData in P.
      rewrite Forall_forall in P. now apply P. }
    subst k. simpl. now apply (step n).
Qed.

(** X19: the stored playbook is never made up locally.  At every point
    between events it is the initial [null] or the very value some fetch
    of the run resolved with. *)
Theorem playbook_comes_from_a_fetch (p : string) (events : list Event) :
  playbook (state (run events (mount p))) = null \/
  exists n, In (Settle n (Resolved (playbook (state (run events (mount p))))))
              events.
Proof.
  apply (run_boundary_invariant
           (fun s => playbook s = null \/
                     exists n, In (Settle n (Resolved (playbook s))) events)
           (fun e => In e events)).
  - intros n r s Rr Is. destruct r as [v|err]; simpl.
    + right. now exists n.
    + exact Is.
  - apply mount_pending.
  - left. unfold mount. now rewrite runEffect_state.
  - apply Forall_forall. auto.
Qed.

(** X20: between events the status tells what happened.  Loading: the
    stored playbook is still [null].  Fetched: the stored playbook is the
    value some fetch of the run resolved with.  Not-found: some fetch of
    the run was rejected. *)
Theorem status_reflects_history (p : string) (events : list Event) :
  let s := state (run events (mount p)) in
  (fetchingState s = loading -> playbook s = null) /\
  (fetchingState s = fetched ->
   exists n, In (Settle n (Resolved (playbook s))) events) /\
  (fetchingState s = notFound ->
   exists n e, In (Settle n (Rejected e)) events).
Proof.
  apply (run_boundary_invariant
           (fun s =>
              (fetchingState s = loading -> playbook s = null) /\
              (fetchingState s = fetched ->
               exists n, In (Settle n (Resolved (playbook s))) events) /\
              (fetchingState s = notFound ->
               exists n e, In (Settle n (Rejected e)) events))
           (fun e => In e events)).
  - intros n r s Rr Is. destruct r as [v|err]; simpl.
    + repeat split; intro E; try discriminate E. now exists n.
    + repeat split; intro E; try discriminate E. now exists n, err.
  - apply mount_pending.
  - unfold mount. rewrite runEffect_state. simpl.
    repeat split; intro E; discriminate E.
  - apply Forall_forall. auto.
Qed.

Lemma status_reflects_history_witness :
  exists n e,
    In (Settle n (Rejected e))
      [Settle 0 (Resolved null); RouteParam "pb2"; Settle 0 (Rejected "x")].
Proof.
  apply (proj2 (proj2 (status_reflects_history "pb1"
           [Settle 0 (Resolved null); RouteParam "pb2";
            Settle 0 (Rejected "x")]))).
  reflexivity.
Defined.
